(** * The landing page of autocut: [frontend/app/page.tsx]

    The page is one React function component, [Home], that takes no
    arguments and returns one JSX tree.  This development embeds that tree,
    the reading of the utility class names it carries, and the parts of CSS
    (stacking contexts, painting order, containing blocks, flex centring,
    viewport units) that the specification of the hero section talks about. *)

From Stdlib Require Import List String Ascii ZArith Bool Lia Arith Permutation.
Import ListNotations.

Open Scope string_scope.
Open Scope list_scope.

(** ** JSX trees *)

Module Jsx.

(** A JSX attribute is a string literal, or a bare attribute, which JSX
    reads as [true]. *)
Inductive prop_value : Type :=
| PString (s : string)
| PBool (b : bool).

(** A lower-case tag is a host (DOM) element; a capitalised one is a
    reference to a component in scope ([Navbar], [Image]). *)
Inductive element_type : Type :=
| Host (tag : string)
| Component (name : string).

Definition props : Type := list (string * prop_value).

#[local] Unset Elimination Schemes.

Inductive node : Type :=
| Text (s : string)
| Element (ty : element_type) (ps : props) (children : list node).

#[local] Set Elimination Schemes.

(** Induction over a tree and, through [Forall], over its children. *)
Section node_ind.
Variable P : node -> Prop.
Hypothesis HText : forall s, P (Text s).
Hypothesis HElement :
  forall ty ps cs, Forall P cs -> P (Element ty ps cs).

Fixpoint node_ind (n : node) : P n :=
  match n with
  | Text s => HText s
  | Element ty ps cs =>
      HElement ty ps cs
        ((fix all (l : list node) : Forall P l :=
            match l with
            | [] => Forall_nil P
            | c :: l' => Forall_cons c (node_ind c) (all l')
            end) cs)
  end.
End node_ind.

(** *** Whitespace of JSX text

    Text between tags is split into lines (at a line feed, a carriage
    return, or the two together); tabs become spaces; every line but the
    first loses its leading spaces and every line but the last its
    trailing spaces; empty lines disappear and the others are joined by
    one space.  Text that is empty after that yields no child.  Character
    references ([&amp;] and the like) are not decoded: the page has
    none. *)

Definition is_blank (c : ascii) : bool :=
  (Ascii.eqb c " " || Ascii.eqb c "009")%bool.

Fixpoint split_lines_aux (cur : string) (s : string) : list string :=
  match s with
  | EmptyString => [cur]
  | String c s' =>
      if Ascii.eqb c "010"
      then cur :: split_lines_aux "" s'
      else if Ascii.eqb c "013"
      then match s' with
           | String d s'' =>
               if Ascii.eqb d "010"
               then cur :: split_lines_aux "" s''
               else cur :: split_lines_aux "" s'
           | EmptyString => cur :: split_lines_aux "" s'
           end
      else split_lines_aux (String.append cur (String c "")) s'
  end.

Definition split_lines (s : string) : list string := split_lines_aux "" s.

Fixpoint untab (s : string) : string :=
  match s with
  | EmptyString => EmptyString
  | String c s' => String (if Ascii.eqb c "009" then " "%char else c) (untab s')
  end.

Fixpoint trim_left (s : string) : string :=
  match s with
  | String " " s' => trim_left s'
  | _ => s
  end.

Fixpoint rev_string (acc s : string) : string :=
  match s with
  | EmptyString => acc
  | String c s' => rev_string (String c acc) s'
  end.

Definition trim_right (s : string) : string :=
  rev_string "" (trim_left (rev_string "" s)).

Fixpoint all_blank (s : string) : bool :=
  match s with
  | EmptyString => true
  | String c s' => (is_blank c && all_blank s')%bool
  end.

(** Index of the last line holding something other than blanks (0 when
    there is none). *)
Fixpoint last_non_empty (i last : nat) (ls : list string) : nat :=
  match ls with
  | [] => last
  | l :: ls' => last_non_empty (S i) (if all_blank l then last else i) ls'
  end.

Fixpoint clean_lines (i count last : nat) (ls : list string) : string :=
  match ls with
  | [] => ""
  | l :: ls' =>
      let l0 := untab l in
      let l1 := if Nat.eqb i 0 then l0 else trim_left l0 in
      let l2 := if Nat.eqb (S i) count then l1 else trim_right l1 in
      let l3 :=
        match l2 with
        | EmptyString => ""
        | _ => if Nat.eqb i last then l2 else String.append l2 " "
        end in
      String.append l3 (clean_lines (S i) count last ls')
  end.

Definition clean_text (raw : string) : string :=
  let ls := split_lines raw in
  clean_lines 0 (List.length ls) (last_non_empty 0 0 ls) ls.

Definition jsx_text (raw : string) : list node :=
  match clean_text raw with
  | EmptyString => []
  | s => [Text s]
  end.

(** *** Access *)

Fixpoint assoc {A : Type} (k : string) (l : list (string * A)) : option A :=
  match l with
  | [] => None
  | (k', v) :: l' => if String.eqb k k' then Some v else assoc k l'
  end.

Definition node_props (n : node) : props :=
  match n with
  | Text _ => []
  | Element _ ps _ => ps
  end.

Definition node_children (n : node) : list node :=
  match n with
  | Text _ => []
  | Element _ _ cs => cs
  end.

Definition className (n : node) : string :=
  match assoc "className" (node_props n) with
  | Some (PString s) => s
  | _ => ""
  end.

Definition is_component (name : string) (n : node) : bool :=
  match n with
  | Element (Component c) _ _ => String.eqb c name
  | _ => false
  end.

(** A position in a tree: the child indices from the root. *)
Definition path : Type := list nat.

Fixpoint lookup (p : path) (n : node) : option node :=
  match p with
  | [] => Some n
  | i :: p' =>
      match nth_error (node_children n) i with
      | Some c => lookup p' c
      | None => None
      end
  end.

(** Every position of a tree with its node, parents before children and
    siblings in source order. *)
Fixpoint positions (p : path) (n : node) : list (path * node) :=
  (p, n) ::
  match n with
  | Text _ => []
  | Element _ _ cs =>
      (fix go (i : nat) (l : list node) : list (path * node) :=
         match l with
         | [] => []
         | c :: l' => positions (p ++ [i]) c ++ go (S i) l'
         end) 0%nat cs
  end.

(** The text of a tree, in document order. *)
Fixpoint text_content (n : node) : list string :=
  match n with
  | Text s => [s]
  | Element _ _ cs => flat_map text_content cs
  end.

Definition host (tag cls : string) (cs : list node) : node :=
  Element (Host tag) [("className", PString cls)] cs.

End Jsx.

Import Jsx.

(** ** The page *)

Definition div := host "div".
Definition h1 := host "h1".
Definition p := host "p".
Definition span := host "span".

(** [export default function Home()]: no parameters, no hooks, one
    [return].  The JSX comment [{/* Hero Section */}] yields no child, and
    neither does the white space between two tags, which is left out;
    text that runs over several lines is given as the source has it. *)
Definition Home (_ : unit) : node :=
  div "flex min-h-screen flex-col items-center justify-center relative overflow-hidden"
    [ Element (Component "Navbar") [] [];
      div "relative flex flex-col items-center justify-center h-screen w-full text-center px-4 bg-foreground overflow-hidden"
        [ div "absolute inset-0 -z-10"
            [ Element (Component "Image")
                [ ("src", PString "/bg.jpg");
                  ("alt", PString "background");
                  ("fill", PBool true);
                  ("priority", PBool true);
                  ("className", PString "object-cover opacity-30 blur-[2px]") ]
                [];
              div "absolute inset-0 bg-gradient-radial from-blue-900/20 via-purple-900/10 to-black mix-blend-overlay" [] ];
          div "max-w-4xl flex flex-col items-center justify-center"
            [ h1 "text-5xl font-weird text-white" (jsx_text "Start creating.");
              Element (Host "p") [] (jsx_text "Transform Hours of Footage into Minutes of Magic.") ] ];
      div "h-screen max-w-5xl flex flex-col items-center justify-start px-4 text-center"
        [ div "flex flex-col justify-center items-center mt-32 gap-4"
            [ h1 "font-serif text-7xl" (jsx_text "
            Create short videos from long ones in a single click
          ");
              p "text-muted-foreground font-sans"
                (jsx_text "
            A tool that can create short videos from long ones before you can
            say " ++
                 [ span "font-weird" (jsx_text "Adabra Kadabra") ] ++
                 jsx_text "
          ") ];
          div "h-screen w-full max-w-5xl"
            [ h1 "font-serif text-7xl" (jsx_text "
            Built to work the way humans do
          ");
              p "text-muted-foreground font-sans"
                (jsx_text "
            Autocut's multi-pass system utilizes Whisper model and Diarization
            for " ++
                 [ span "font-weird" (jsx_text "seamless") ] ++
                 jsx_text " video editing.
          ") ] ] ].

(** Places of the page, as paths from the root. *)
Definition hero_path : path := [1].
Definition stack_path : path := [1; 0].
Definition image_path : path := [1; 0; 0].
Definition gradient_path : path := [1; 0; 1].
Definition hero_text_path : path := [1; 1].
Definition heading_path : path := [1; 1; 0].
Definition subheading_path : path := [1; 1; 1].
Definition first_section_path : path := [2; 0].
Definition second_section_path : path := [2; 1].

(** ** Utility classes

    The class names are Tailwind utilities.  Each reader below gives the CSS
    declaration a utility stands for, as Tailwind documents it; lengths are
    in CSS pixels with the default root font size (1rem = 16px).  The
    readers know the named steps of a scale and whole numbers ([z-10],
    [opacity-30], [blur-[2px]]); arbitrary values in other units or with a
    fraction are not read.  Where a class list holds several names of one
    family the first is taken, whereas a browser goes by the order of the
    style sheet; the page has no such list. *)

Module Tailwind.

Fixpoint split_blank_aux (cur : string) (s : string) : list string :=
  match s with
  | EmptyString => [cur]
  | String c s' =>
      if is_blank c
      then cur :: split_blank_aux "" s'
      else split_blank_aux (String.append cur (String c "")) s'
  end.

Definition non_empty (s : string) : bool :=
  match s with
  | EmptyString => false
  | _ => true
  end.

(** The class list of a [className] string. *)
Definition tokens (cls : string) : list string :=
  filter non_empty (split_blank_aux "" cls).

Definition classes (n : node) : list string := tokens (className n).

Definition has (t : string) (n : node) : bool :=
  existsb (String.eqb t) (classes n).

Fixpoint strip_prefix (pre s : string) : option string :=
  match pre, s with
  | EmptyString, _ => Some s
  | String a pre', String b s' =>
      if Ascii.eqb a b then strip_prefix pre' s' else None
  | String _ _, EmptyString => None
  end.

Definition digit (c : ascii) : option Z :=
  let n := Z.of_nat (nat_of_ascii c) in
  if ((48 <=? n) && (n <=? 57))%Z%bool then Some (n - 48)%Z else None.

Fixpoint parse_digits (acc : Z) (s : string) : option Z :=
  match s with
  | EmptyString => Some acc
  | String c s' =>
      match digit c with
      | Some d => parse_digits (10 * acc + d)%Z s'
      | None => None
      end
  end.

Definition parse_number (s : string) : option Z :=
  match s with
  | EmptyString => None
  | _ => parse_digits 0%Z s
  end.

Fixpoint first_some {A B : Type} (f : A -> option B) (l : list A) : option B :=
  match l with
  | [] => None
  | a :: l' =>
      match f a with
      | Some b => Some b
      | None => first_some f l'
      end
  end.

(** *** position *)

Inductive position : Type := Static | Relative | Absolute | Fixed | Sticky.

Definition position_token (t : string) : option position :=
  if String.eqb t "static" then Some Static
  else if String.eqb t "relative" then Some Relative
  else if String.eqb t "absolute" then Some Absolute
  else if String.eqb t "fixed" then Some Fixed
  else if String.eqb t "sticky" then Some Sticky
  else None.

(** [next/image] with the [fill] prop renders an image that is
    absolutely positioned over its parent unless a class says otherwise. *)
Definition fills (n : node) : bool :=
  (is_component "Image" n &&
   match assoc "fill" (node_props n) with
   | Some (PBool true) => true
   | _ => false
   end)%bool.

Definition position_of (n : node) : position :=
  match first_some position_token (classes n) with
  | Some q => q
  | None => if fills n then Absolute else Static
  end.

Definition positioned (n : node) : bool :=
  match position_of n with
  | Static => false
  | _ => true
  end.

(** *** z-index: [z-N], [-z-N]; [None] is [auto] *)

Definition z_token (t : string) : option Z :=
  match strip_prefix "-z-" t with
  | Some r => option_map Z.opp (parse_number r)
  | None =>
      match strip_prefix "z-" t with
      | Some r => parse_number r
      | None => None
      end
  end.

Definition z_index_of (n : node) : option Z :=
  first_some z_token (classes n).

(** *** opacity, in percent: [opacity-N] *)

Definition opacity_token (t : string) : option Z :=
  match strip_prefix "opacity-" t with
  | Some r => parse_number r
  | None => None
  end.

Definition opacity_of (n : node) : Z :=
  match first_some opacity_token (classes n) with
  | Some o => o
  | None => 100%Z
  end.

(** *** filter: the blur radius in pixels, [blur-[Npx]] or a named size *)

Definition blur_token (t : string) : option Z :=
  match strip_prefix "blur-[" t with
  | Some r =>
      match strip_prefix "]xp" (rev_string "" r) with
      | Some d => parse_number (rev_string "" d)
      | None => None
      end
  | None =>
      if String.eqb t "blur-sm" then Some 4%Z
      else if String.eqb t "blur" then Some 8%Z
      else if String.eqb t "blur-md" then Some 12%Z
      else if String.eqb t "blur-lg" then Some 16%Z
      else if String.eqb t "blur-xl" then Some 24%Z
      else if String.eqb t "blur-2xl" then Some 40%Z
      else if String.eqb t "blur-3xl" then Some 64%Z
      else None
  end.

Definition blur_of (n : node) : option Z :=
  first_some blur_token (classes n).

(** *** mix-blend-mode *)

Inductive blend : Type := Normal | Overlay | OtherBlend (name : string).

Definition blend_token (t : string) : option blend :=
  match strip_prefix "mix-blend-" t with
  | Some r =>
      if String.eqb r "normal" then Some Normal
      else if String.eqb r "overlay" then Some Overlay
      else Some (OtherBlend r)
  | None => None
  end.

Definition blend_of (n : node) : blend :=
  match first_some blend_token (classes n) with
  | Some b => b
  | None => Normal
  end.

Definition blends (n : node) : bool :=
  match blend_of n with
  | Normal => false
  | _ => true
  end.

(** *** object-fit *)

Inductive object_fit : Type := FitFill | FitContain | FitCover | FitNone | FitScaleDown.

Definition fit_token (t : string) : option object_fit :=
  if String.eqb t "object-fill" then Some FitFill
  else if String.eqb t "object-contain" then Some FitContain
  else if String.eqb t "object-cover" then Some FitCover
  else if String.eqb t "object-none" then Some FitNone
  else if String.eqb t "object-scale-down" then Some FitScaleDown
  else None.

Definition object_fit_of (n : node) : object_fit :=
  match first_some fit_token (classes n) with
  | Some f => f
  | None => FitFill
  end.

(** *** overflow *)

Definition clips (n : node) : bool := has "overflow-hidden" n.

End Tailwind.

Import Tailwind.

(** ** Colours, backgrounds and the gradient *)

Module Colour.

(** A colour utility names a colour and may carry an alpha modifier
    ([blue-900/20] is blue-900 at 20%); without one it is opaque. *)
Record colour : Type := { name : string; alpha : Z }.

Fixpoint split_slash (cur : string) (s : string) : string * option string :=
  match s with
  | EmptyString => (cur, None)
  | String c s' =>
      if Ascii.eqb c "/" then (cur, Some s')
      else split_slash (String.append cur (String c "")) s'
  end.

Definition parse_colour (s : string) : colour :=
  match split_slash "" s with
  | (n, Some a) =>
      {| name := n;
         alpha := match parse_number a with Some v => v | None => 100%Z end |}
  | (n, None) => {| name := n; alpha := 100%Z |}
  end.

(** The entries of Tailwind's default palette that the page names, as
    (red, green, blue).  Theme colours such as [foreground] get their
    value from the project's configuration and have no entry. *)
Definition rgb (n : string) : option (Z * Z * Z) :=
  if String.eqb n "black" then Some (0, 0, 0)%Z
  else if String.eqb n "white" then Some (255, 255, 255)%Z
  else if String.eqb n "blue-900" then Some (30, 58, 138)%Z
  else if String.eqb n "purple-900" then Some (88, 28, 135)%Z
  else None.

(** A cool colour: blue outweighs red. *)
Definition cool (c : colour) : bool :=
  match rgb (name c) with
  | Some (r, _, b) => (r <? b)%Z
  | None => false
  end.

Definition is_black (c : colour) : bool :=
  match rgb (name c) with
  | Some (r, g, b) => ((r =? 0) && (g =? 0) && (b =? 0))%Z%bool
  | None => false
  end.

(** What a [bg-] utility paints. *)
Inductive background : Type :=
| BgColour (c : colour)
| BgGradient (shape : string).

Definition bg_token (t : string) : option background :=
  match strip_prefix "bg-gradient-" t with
  | Some shape => Some (BgGradient shape)
  | None =>
      match strip_prefix "bg-" t with
      | Some r =>
          if (String.eqb r "none" || String.eqb r "transparent")%bool
          then None
          else Some (BgColour (parse_colour r))
      | None => None
      end
  end.

Definition backgrounds (n : node) : list (string * background) :=
  flat_map (fun t => match bg_token t with
                     | Some b => [(t, b)]
                     | None => []
                     end) (classes n).

(** A colour stop: its place along the gradient ray in percent (0 at the
    start, 100 at the end) and its colour. *)
Definition stop : Type := (Z * colour)%type.

Definition stop_token (t : string) : option stop :=
  match strip_prefix "from-" t with
  | Some r => Some (0%Z, parse_colour r)
  | None =>
      match strip_prefix "via-" t with
      | Some r => Some (50%Z, parse_colour r)
      | None =>
          match strip_prefix "to-" t with
          | Some r => Some (100%Z, parse_colour r)
          | None => None
          end
      end
  end.

Fixpoint insert_stop (s : stop) (l : list stop) : list stop :=
  match l with
  | [] => [s]
  | s' :: l' =>
      if (fst s <=? fst s')%Z then s :: l else s' :: insert_stop s l'
  end.

Definition stops (n : node) : list stop :=
  fold_right insert_stop []
    (flat_map (fun t => match stop_token t with
                        | Some s => [s]
                        | None => []
                        end) (classes n)).

(** Modelled from the spec: [bg-gradient-radial] is not one of Tailwind's
    own utilities; the project's Tailwind configuration, which is not
    among the sources, defines it.  The specification calls the layer a
    radial gradient that runs from its centre to its edges, so the ray
    starts (0%) at the centre of the box and ends (100%) at its edge,
    with the stops the [from-], [via-] and [to-] utilities set. *)
Definition radial_gradient (n : node) : option (list stop) :=
  if has "bg-gradient-radial" n then Some (stops n) else None.

End Colour.

Import Colour.

(** ** Stacking contexts and painting order

    The order in which a browser paints the boxes of a tree (CSS 2,
    appendix E, without floats).  Inside one stacking context, from back to
    front: the context's own background; the child contexts of negative
    stack level; the boxes that are in flow and not positioned, first their
    backgrounds, then their inline content; the positioned descendants of
    level [auto] or 0 and the child contexts of level 0, in tree order; the
    child contexts of positive level.  A child context is painted as one
    unit.  A positioned box of level [auto] is painted like a context of its
    own, except that its positioned descendants and the contexts below it
    belong to the enclosing context. *)

Module Paint.

Inductive layer : Type :=
| LBackground (at_path : path) (token : string)
| LImage (at_path : path) (src : string)
| LText (at_path : path) (s : string)
| LComponent (at_path : path) (name : string).

Definition layer_path (l : layer) : path :=
  match l with
  | LBackground q _ | LImage q _ | LText q _ | LComponent q _ => q
  end.

Definition is_some {A : Type} (o : option A) : bool :=
  match o with
  | Some _ => true
  | None => false
  end.

(** A box starts a stacking context when it is positioned with a z-index
    other than [auto], is fixed or sticky, has an opacity below 1, a
    filter, a blend mode other than [normal], or [isolation: isolate].
    (z-index is read on positioned boxes; the page sets it on no other.) *)
Definition creates_stacking_context (n : node) : bool :=
  match n with
  | Text _ => false
  | Element _ _ _ =>
      (positioned n && is_some (z_index_of n))
      || match position_of n with Fixed | Sticky => true | _ => false end
      || (opacity_of n <? 100)%Z
      || is_some (blur_of n)
      || blends n
      || has "isolate" n
  end.

Definition stack_level (n : node) : Z :=
  if positioned n
  then match z_index_of n with Some z => z | None => 0%Z end
  else 0%Z.

(** What the subtree of a box hands to the stacking context around it. *)
Record strata : Type :=
  { below : list (Z * list layer);
    flow_boxes : list layer;
    flow_inline : list layer;
    level0 : list layer;
    above : list (Z * list layer) }.

Definition no_strata : strata :=
  {| below := []; flow_boxes := []; flow_inline := []; level0 := [];
     above := [] |}.

Definition merge (a b : strata) : strata :=
  {| below := below a ++ below b;
     flow_boxes := flow_boxes a ++ flow_boxes b;
     flow_inline := flow_inline a ++ flow_inline b;
     level0 := level0 a ++ level0 b;
     above := above a ++ above b |}.

(** Child contexts of one sign are painted by increasing level, and in
    tree order where levels are equal. *)
Fixpoint insert_level (x : Z * list layer) (l : list (Z * list layer))
  : list (Z * list layer) :=
  match l with
  | [] => [x]
  | y :: l' =>
      if (fst x <=? fst y)%Z then x :: l else y :: insert_level x l'
  end.

Definition by_level (l : list (Z * list layer)) : list layer :=
  List.concat (map snd (fold_right insert_level [] l)).

(** The boxes a node paints itself: the backgrounds of a host element,
    or a component other than [Image], whose rendering is its own. *)
Definition own_boxes (q : path) (n : node) : list layer :=
  match n with
  | Text _ => []
  | Element (Host _) _ _ =>
      map (fun tb => LBackground q (fst tb)) (backgrounds n)
  | Element (Component c) _ _ =>
      if String.eqb c "Image" then [] else [LComponent q c]
  end.

(** The content a node paints itself: a run of text, or the picture of
    an [Image], which paints nothing when the asset did not load. *)
Definition own_content (loaded : bool) (q : path) (n : node) : list layer :=
  match n with
  | Text s => [LText q s]
  | Element (Component c) ps _ =>
      if (String.eqb c "Image" && loaded)%bool
      then match assoc "src" ps with
           | Some (PString src) => [LImage q src]
           | _ => []
           end
      else []
  | Element (Host _) _ _ => []
  end.

(** A stacking context painted as one unit. *)
Definition unit_of (boxes content : list layer) (sub : strata) : list layer :=
  boxes ++ by_level (below sub) ++ flow_boxes sub ++ content
  ++ flow_inline sub ++ level0 sub ++ by_level (above sub).

Definition place (n : node) (boxes content : list layer) (sub : strata)
  : strata :=
  if creates_stacking_context n then
    let u := unit_of boxes content sub in
    let z := stack_level n in
    if (z <? 0)%Z then
      {| below := [(z, u)]; flow_boxes := []; flow_inline := [];
         level0 := []; above := [] |}
    else if (0 <? z)%Z then
      {| below := []; flow_boxes := []; flow_inline := [];
         level0 := []; above := [(z, u)] |}
    else
      {| below := []; flow_boxes := []; flow_inline := [];
         level0 := u; above := [] |}
  else if positioned n then
    {| below := below sub; flow_boxes := []; flow_inline := [];
       level0 := boxes ++ flow_boxes sub ++ content ++ flow_inline sub
                 ++ level0 sub;
       above := above sub |}
  else
    {| below := below sub;
       flow_boxes := boxes ++ flow_boxes sub;
       flow_inline := content ++ flow_inline sub;
       level0 := level0 sub;
       above := above sub |}.

(** The strata of the children of the box at [q], in tree order; [i]
    is the index of the first child of [l]. *)
Definition merge_children (f : path -> node -> strata) (q : path)
  : nat -> list node -> strata :=
  fix go (i : nat) (l : list node) : strata :=
    match l with
    | [] => no_strata
    | c :: l' => merge (f (q ++ [i]) c) (go (S i) l')
    end.

Fixpoint contributions (loaded : bool) (q : path) (n : node) : strata :=
  place n (own_boxes q n) (own_content loaded q n)
    match n with
    | Text _ => no_strata
    | Element _ _ cs => merge_children (contributions loaded) q 0%nat cs
    end.

(** The page painted inside the root stacking context, back to front. *)
Definition paint (loaded : bool) (root : node) : list layer :=
  unit_of [] [] (contributions loaded [] root).

(** The subtree at [q] painted as one unit. *)
Definition paint_unit (loaded : bool) (q : path) (n : node) : list layer :=
  unit_of (own_boxes q n) (own_content loaded q n)
    (merge_children (contributions loaded) q 0%nat (node_children n)).

(** Painting without the pictures. *)
Definition is_picture (l : layer) : bool :=
  match l with
  | LImage _ _ => true
  | _ => false
  end.

Definition without_pictures (l : list layer) : list layer :=
  filter (fun x => negb (is_picture x)) l.

(** The same on what a subtree hands to its context. *)
Definition strip_level (x : Z * list layer) : Z * list layer :=
  (fst x, without_pictures (snd x)).

Definition strip (s : strata) : strata :=
  {| below := map strip_level (below s);
     flow_boxes := without_pictures (flow_boxes s);
     flow_inline := without_pictures (flow_inline s);
     level0 := without_pictures (level0 s);
     above := map strip_level (above s) |}.

(** *** Order *)

Fixpoint index_of (f : layer -> bool) (l : list layer) : option nat :=
  match l with
  | [] => None
  | x :: l' => if f x then Some 0%nat else option_map S (index_of f l')
  end.

Fixpoint is_prefix (a b : path) : bool :=
  match a, b with
  | [], _ => true
  | i :: a', j :: b' => (Nat.eqb i j && is_prefix a' b')%bool
  | _ :: _, [] => false
  end.

Definition path_eqb (a b : path) : bool :=
  (is_prefix a b && is_prefix b a)%bool.

(** The layers of [l] that the subtree at [q] paints. *)
Definition layers_under (q : path) (l : list layer) : list layer :=
  filter (fun x => is_prefix q (layer_path x)) l.


Definition under (q : path) (x : layer) : bool := is_prefix q (layer_path x).

Definition at_box (q : path) (x : layer) : bool := path_eqb q (layer_path x).

(** The first layer that [x] holds of is painted before (beneath) the
    first that [y] holds of. *)
Definition beneath (l : list layer) (x y : layer -> bool) : bool :=
  match index_of x l, index_of y l with
  | Some i, Some j => (i <? j)%nat
  | _, _ => false
  end.

(** *** The group a blend mode composites with

    An element with a blend mode is blended with what has been painted
    before it inside the stacking context it belongs to, and with nothing
    outside that context: a stacking context is an isolated group. *)

Fixpoint proper_prefixes (q : path) : list path :=
  match q with
  | [] => []
  | i :: q' => [] :: map (cons i) (proper_prefixes q')
  end.

Definition starts_context_at (root : node) (q : path) : bool :=
  match lookup q root with
  | Some n => creates_stacking_context n
  | None => false
  end.

(** The nearest proper ancestor that starts a stacking context; [None]
    when the box belongs to the root context. *)
Definition stacking_context_of (root : node) (q : path) : option path :=
  fold_left (fun acc a => if starts_context_at root a then Some a else acc)
    (proper_prefixes q) None.

Definition group_of (loaded : bool) (root : node) (q : path) : list layer :=
  match stacking_context_of root q with
  | Some c =>
      match lookup c root with
      | Some n => paint_unit loaded c n
      | None => []
      end
  | None => paint loaded root
  end.

Fixpoint before_path (q : path) (l : list layer) : list layer :=
  match l with
  | [] => []
  | x :: l' => if is_prefix q (layer_path x) then [] else x :: before_path q l'
  end.

Definition backdrop (loaded : bool) (root : node) (q : path) : list layer :=
  before_path q (group_of loaded root q).

End Paint.

Import Paint.

(** ** Boxes: sizes, containing blocks, clipping and flex placement *)

Module Layout.

Record viewport : Type := { vw : Z; vh : Z }.

Inductive extent : Type := Full | Screen.

Definition width_token (t : string) : option extent :=
  if String.eqb t "w-full" then Some Full
  else if String.eqb t "w-screen" then Some Screen
  else None.

Definition height_token (t : string) : option extent :=
  if String.eqb t "h-full" then Some Full
  else if String.eqb t "h-screen" then Some Screen
  else None.

(** [max-w-4xl] is 56rem and [max-w-5xl] 64rem. *)
Definition max_width_token (t : string) : option Z :=
  if String.eqb t "max-w-4xl" then Some 896%Z
  else if String.eqb t "max-w-5xl" then Some 1024%Z
  else None.

(** Horizontal padding on each side: [px-N] and [p-N] are N quarters of
    a rem.  Tailwind's base styles make every box a border box, so
    padding is inside the width. *)
Definition padding_x_token (t : string) : option Z :=
  match strip_prefix "px-" t with
  | Some r => option_map (Z.mul 4) (parse_number r)
  | None =>
      match strip_prefix "p-" t with
      | Some r => option_map (Z.mul 4) (parse_number r)
      | None => None
      end
  end.

Definition padding_x (n : node) : Z :=
  match first_some padding_x_token (classes n) with
  | Some v => v
  | None => 0%Z
  end.

Definition clamp (n : node) (w : Z) : Z :=
  match first_some max_width_token (classes n) with
  | Some m => Z.min w m
  | None => w
  end.

(** *** Flex containers *)

Inductive direction : Type := Row | Column.
Inductive alignment : Type := AtStart | AtCentre | AtEnd | Stretch | Between.

Definition is_flex (n : node) : bool := has "flex" n.

Definition direction_of (n : node) : direction :=
  if has "flex-col" n then Column else Row.

Definition justify_token (t : string) : option alignment :=
  if String.eqb t "justify-start" then Some AtStart
  else if String.eqb t "justify-center" then Some AtCentre
  else if String.eqb t "justify-end" then Some AtEnd
  else if String.eqb t "justify-between" then Some Between
  else None.

Definition items_token (t : string) : option alignment :=
  if String.eqb t "items-start" then Some AtStart
  else if String.eqb t "items-center" then Some AtCentre
  else if String.eqb t "items-end" then Some AtEnd
  else if String.eqb t "items-stretch" then Some Stretch
  else None.

Definition justify_of (n : node) : alignment :=
  match first_some justify_token (classes n) with
  | Some a => a
  | None => AtStart
  end.

Definition items_of (n : node) : alignment :=
  match first_some items_token (classes n) with
  | Some a => a
  | None => Stretch
  end.

Definition out_of_flow (n : node) : bool :=
  match position_of n with
  | Absolute | Fixed => true
  | _ => false
  end.

(** The children that take part in their parent's layout. *)
Definition in_flow_children (n : node) : list node :=
  filter (fun c => negb (out_of_flow c)) (node_children n).

(** Where one item of extent [item] starts in a container of extent
    [room], along an axis aligned by [a]. *)
Definition offset (a : alignment) (room item : Z) : Z :=
  match a with
  | AtStart | Stretch | Between => 0%Z
  | AtCentre => ((room - item) / 2)%Z
  | AtEnd => (room - item)%Z
  end.

(** The place, from the top left corner of the content box, of the only
    in-flow item of a flex container; [None] when the node is no flex
    container or has not exactly one such item. *)
Definition place_single (n : node) (room_w room_h w h : Z) : option (Z * Z) :=
  if is_flex n then
    match in_flow_children n with
    | [_] =>
        match direction_of n with
        | Column =>
            Some (offset (items_of n) room_w w, offset (justify_of n) room_h h)
        | Row =>
            Some (offset (justify_of n) room_w w, offset (items_of n) room_h h)
        end
    | _ => None
    end
  else None.

(** *** Sizes

    [None] is a size that depends on content.  [avail] is the width the
    parent offers (its content width); [stretch] says whether a box with
    no width of its own takes all of it: a block in a block container
    does, and so does an item of a column that stretches its items; an
    item of a row, or of a column that aligns them otherwise, is sized by
    its content; so is, along the main axis, an item of a flex container
    of fixed extent, which may shrink.  An absolutely positioned box with
    [inset-0] (or an [Image] with [fill]) whose parent is positioned
    covers the parent's padding box. *)

Definition covers_parent (n : node) : bool :=
  match position_of n with
  | Absolute => (has "inset-0" n || fills n)%bool
  | _ => false
  end.

Definition used_width (v : viewport) (parent_w avail : option Z)
    (parent_positioned stretch squeezed : bool) (n : node) : option Z :=
  match n with
  | Text _ => None
  | Element _ _ _ =>
      if out_of_flow n then
        if (covers_parent n && parent_positioned)%bool then parent_w
        else None
      else if squeezed then None
      else
        match first_some width_token (classes n) with
        | Some Full => option_map (clamp n) avail
        | Some Screen => Some (clamp n (vw v))
        | None => if stretch then option_map (clamp n) avail else None
        end
  end.

Definition used_height (v : viewport) (parent_h : option Z)
    (parent_positioned squeezed : bool) (n : node) : option Z :=
  match n with
  | Text _ => None
  | Element _ _ _ =>
      if out_of_flow n then
        if (covers_parent n && parent_positioned)%bool then parent_h
        else None
      else if squeezed then None
      else
        match first_some height_token (classes n) with
        | Some Screen => Some (vh v)
        | Some Full => parent_h
        | None => None
        end
  end.

Definition stretches_items (n : node) : bool :=
  if is_flex n then
    match direction_of n, items_of n with
    | Column, Stretch => true
    | _, _ => false
    end
  else true.

Definition content_width (n : node) (w : option Z) : option Z :=
  option_map (fun x => (x - 2 * padding_x n)%Z) w.

(** A flex container whose extent along its main axis is fixed shrinks
    its items when they do not fit, so how much of their declared extent
    they keep depends on content; a container that grows with its content
    (extent [None], as under [min-h-screen] alone) never does. *)
Definition squeezes (d : direction) (n : node) (extent : option Z) : bool :=
  (is_flex n
   && match direction_of n, d with
      | Row, Row | Column, Column => true
      | _, _ => false
      end
   && is_some extent)%bool.

Fixpoint size_from (v : viewport) (parent_w avail parent_h : option Z)
    (parent_positioned stretch squeezed_w squeezed_h : bool)
    (n : node) (q : path)
  : option Z * option Z :=
  let w :=
    used_width v parent_w avail parent_positioned stretch squeezed_w n in
  let h := used_height v parent_h parent_positioned squeezed_h n in
  match q with
  | [] => (w, h)
  | i :: q' =>
      match nth_error (node_children n) i with
      | Some c =>
          size_from v w (content_width n w) h (positioned n)
            (stretches_items n) (squeezes Row n w) (squeezes Column n h)
            c q'
      | None => (None, None)
      end
  end.

(** The size of the box at [q] when the page is mounted in a block as
    wide as the viewport (the document body, whose margins Tailwind's
    base styles reset; the root layout is not part of the page). *)
Definition size_of (v : viewport) (root : node) (q : path)
  : option Z * option Z :=
  size_from v (Some (vw v)) (Some (vw v)) None false true false false root q.

(** *** Containing blocks and clipping *)

(** The containing block of an absolutely positioned box is its nearest
    positioned ancestor; of any other box, its parent.  [None] stands for
    what is outside the page (the initial containing block for an
    absolute or fixed box with no positioned ancestor in the page). *)
Definition containing_block (root : node) (q : path) : option path :=
  match lookup q root with
  | None => None
  | Some n =>
      match position_of n with
      | Fixed => None
      | Absolute =>
          fold_left
            (fun acc a =>
               match lookup a root with
               | Some m => if positioned m then Some a else acc
               | None => acc
               end) (proper_prefixes q) None
      | _ =>
          match q with
          | [] => None
          | _ => Some (removelast q)
          end
      end
  end.

(** The chain of containing blocks of a box, innermost first. *)
Fixpoint containing_chain (fuel : nat) (root : node) (q : path) : list path :=
  match fuel with
  | O => []
  | S fuel' =>
      match containing_block root q with
      | Some c => c :: containing_chain fuel' root c
      | None => []
      end
  end.

(** [overflow: hidden] on the box at [c] clips the box at [q] when [c]
    is in the chain of containing blocks of [q]. *)
Definition clipped_by (root : node) (c q : path) : bool :=
  match lookup c root with
  | Some n => clips n
  | None => false
  end &&
  existsb (path_eqb c) (containing_chain (S (List.length q)) root q).

(** The box whose padding box the box at [q] covers: itself, unless it
    covers its positioned parent, and so on upwards. *)
Fixpoint region_from (n : node) (here : path) (q : path) (acc : path) : path :=
  match q with
  | [] => acc
  | i :: q' =>
      match nth_error (node_children n) i with
      | Some c =>
          let there := here ++ [i] in
          region_from c there q'
            (if (covers_parent c && positioned n)%bool then acc else there)
      | None => acc
      end
  end.

Definition region (root : node) (q : path) : path :=
  region_from root [] q [].

End Layout.

Import Layout.

(** ** Effects that reach a box

    Opacity and filters apply to a box together with everything inside it,
    so a box is affected by those on itself and on its ancestors, and by
    no others. *)

Module Effects.

Definition has_blur (n : node) : bool := is_some (blur_of n).

Definition has_opacity (n : node) : bool := (opacity_of n <? 100)%Z.

Definition has_effect (n : node) : bool := (has_opacity n || has_blur n)%bool.

(** The places of a tree whose node satisfies [f]. *)
Definition sites (f : node -> bool) (root : node) : list path :=
  map fst (filter (fun pn => f (snd pn)) (positions [] root)).

(** The box at [q] and its ancestors, outermost first. *)
Definition self_and_ancestors (q : path) : list path :=
  proper_prefixes q ++ [q].

(** Those of them whose node satisfies [f]. *)
Definition reaching (f : node -> bool) (root : node) (q : path) : list path :=
  filter (fun a => match lookup a root with
                   | Some n => f n
                   | None => false
                   end) (self_and_ancestors q).

(** The places of the subtree at [q], [q] included. *)
Definition subtree (root : node) (q : path) : list path :=
  filter (is_prefix q) (map fst (positions [] root)).

Definition props_at (root : node) (q : path) : props :=
  match lookup q root with
  | Some n => node_props n
  | None => []
  end.

End Effects.

Import Effects.

(** ** What the page is expected to hold *)

Module Expected.


Definition heading_text : string := "Start creating.".
Definition subheading_text : string :=
  "Transform Hours of Footage into Minutes of Magic.".

Definition picture : layer := LImage image_path "/bg.jpg".
Definition tint : layer := LBackground gradient_path "bg-gradient-radial".
Definition hero_colour : layer := LBackground hero_path "bg-foreground".
Definition heading : layer := LText (heading_path ++ [0%nat]) heading_text.
Definition subheading : layer :=
  LText (subheading_path ++ [0%nat]) subheading_text.

(** What [Home] passes to [Image]. *)
Definition image_props : props :=
  [ ("src", PString "/bg.jpg");
    ("alt", PString "background");
    ("fill", PBool true);
    ("priority", PBool true);
    ("className", PString "object-cover opacity-30 blur-[2px]") ].

Definition section_texts : list string :=
  [ "Create short videos from long ones in a single click";
    "A tool that can create short videos from long ones before you can say ";
    "Adabra Kadabra";
    "Built to work the way humans do";
    "Autocut's multi-pass system utilizes Whisper model and Diarization for ";
    "seamless";
    " video editing." ].

Definition section_layers : list layer :=
  [ LText [2; 0; 0; 0]
      "Create short videos from long ones in a single click";
    LText [2; 0; 1; 0]
      "A tool that can create short videos from long ones before you can say ";
    LText [2; 0; 1; 1; 0] "Adabra Kadabra";
    LText [2; 1; 0; 0] "Built to work the way humans do";
    LText [2; 1; 1; 0]
      "Autocut's multi-pass system utilizes Whisper model and Diarization for ";
    LText [2; 1; 1; 1; 0] "seamless";
    LText [2; 1; 1; 2] " video editing." ]%nat.

Definition navbar : layer := LComponent [0%nat] "Navbar".

End Expected.

Import Expected.

(** ** Class lists as a whole

    Checks on the class list of one element: that no two of its names set
    the same CSS property, and that no name depends on a companion the
    element lacks. *)

Module Lint.

Definition reads {A : Type} (f : string -> option A) (t : string) : bool :=
  is_some (f t).

Definition has_prefix (pre t : string) : bool := is_some (strip_prefix pre t).

Definition is_direction (t : string) : bool :=
  (String.eqb t "flex-row" || String.eqb t "flex-col"
   || String.eqb t "flex-row-reverse" || String.eqb t "flex-col-reverse")%bool.

Definition paints_colour (t : string) : bool :=
  match bg_token t with
  | Some (BgColour _) => true
  | _ => false
  end.

Definition paints_gradient (t : string) : bool :=
  match bg_token t with
  | Some (BgGradient _) => true
  | _ => false
  end.

(** *** Text colour

    [text-] starts the utilities of font size, of text alignment and of
    wrapping and overflow as well as those of colour; a name that is none
    of the former is a colour. *)
Definition text_keywords : list string :=
  [ "xs"; "sm"; "base"; "lg"; "xl"; "2xl"; "3xl"; "4xl"; "5xl"; "6xl";
    "7xl"; "8xl"; "9xl";
    "left"; "center"; "right"; "justify"; "start"; "end";
    "wrap"; "nowrap"; "balance"; "pretty"; "ellipsis"; "clip" ].

Definition text_colour_token (t : string) : option colour :=
  match strip_prefix "text-" t with
  | Some r =>
      if existsb (String.eqb r) text_keywords then None
      else Some (parse_colour r)
  | None => None
  end.

Definition own_text_colour (n : node) : option colour :=
  first_some text_colour_token (classes n).

(** [color] is inherited: a box has the colour of the nearest of itself
    and its ancestors that sets one; [None] when none in the tree does. *)
Definition text_colour_at (root : node) (q : path) : option colour :=
  fold_left
    (fun acc a =>
       match lookup a root with
       | Some n =>
           match own_text_colour n with
           | Some c => Some c
           | None => acc
           end
       | None => acc
       end) (self_and_ancestors q) None.

(** The runs of text of a tree, each with its place, in document order. *)
Definition text_runs (root : node) : list (path * string) :=
  flat_map (fun pn => match snd pn with
                      | Text s => [(fst pn, s)]
                      | Element _ _ _ => []
                      end) (positions [] root).

(** *** Families of utilities that set one property each *)

Definition families : list (string * (string -> bool)) :=
  [ ("position", reads position_token);
    ("z-index", reads z_token);
    ("opacity", reads opacity_token);
    ("blur", reads blur_token);
    ("mix-blend-mode", reads blend_token);
    ("object-fit", reads fit_token);
    ("width", reads width_token);
    ("height", reads height_token);
    ("max-width", reads max_width_token);
    ("padding-x", reads padding_x_token);
    ("justify-content", reads justify_token);
    ("align-items", reads items_token);
    ("flex-direction", is_direction);
    ("background-color", paints_colour);
    ("background-image", paints_gradient);
    ("gradient-from", has_prefix "from-");
    ("gradient-via", has_prefix "via-");
    ("gradient-to", has_prefix "to-");
    ("color", reads text_colour_token) ].

(** The families of which the element carries more than one name. *)
Definition clashes (n : node) : list string :=
  map fst
    (filter (fun fam =>
               (1 <? List.length (filter (snd fam) (classes n)))%nat)
       families).

Fixpoint no_repeat (l : list string) : bool :=
  match l with
  | [] => true
  | x :: l' => (negb (existsb (String.eqb x) l') && no_repeat l')%bool
  end.

(** *** Names that need a companion

    Alignment, direction and gap act on a flex container only; an inset on
    a positioned box only, and a z-index on a positioned box or on an item
    of a flex container; colour stops on a gradient only; object fit on a
    replaced element, here an [Image], only. *)
Definition needs_flex (t : string) : bool :=
  (reads justify_token t || reads items_token t || is_direction t
   || has_prefix "gap-" t)%bool.

Definition needs_gradient (t : string) : bool :=
  (has_prefix "from-" t || has_prefix "via-" t || has_prefix "to-" t)%bool.

Definition idle (parent_is_flex : bool) (n : node) : list string :=
  filter
    (fun t =>
       (needs_flex t && negb (is_flex n))
       || (has_prefix "inset-" t && negb (positioned n))
       || (reads z_token t && negb (positioned n || parent_is_flex))
       || (needs_gradient t && negb (existsb paints_gradient (classes n)))
       || (reads fit_token t && negb (is_component "Image" n)))%bool
    (classes n).

Definition parent_is_flex (root : node) (q : path) : bool :=
  match q with
  | [] => false
  | _ =>
      match lookup (removelast q) root with
      | Some m => is_flex m
      | None => false
      end
  end.

(** The elements of a tree with an idle name, each with those names. *)
Definition idle_sites (root : node) : list (path * list string) :=
  filter (fun x => match snd x with [] => false | _ => true end)
    (map (fun pn => (fst pn, idle (parent_is_flex root (fst pn)) (snd pn)))
       (positions [] root)).

(** *** Readings that take the first name of a family *)

Record readings : Type :=
  { r_position : option position;
    r_z_index : option Z;
    r_opacity : option Z;
    r_blur : option Z;
    r_blend : option blend;
    r_fit : option object_fit;
    r_width : option extent;
    r_height : option extent;
    r_max_width : option Z;
    r_padding_x : option Z;
    r_justify : option alignment;
    r_items : option alignment;
    r_colour : option colour }.

Definition read_all (l : list string) : readings :=
  {| r_position := first_some position_token l;
     r_z_index := first_some z_token l;
     r_opacity := first_some opacity_token l;
     r_blur := first_some blur_token l;
     r_blend := first_some blend_token l;
     r_fit := first_some fit_token l;
     r_width := first_some width_token l;
     r_height := first_some height_token l;
     r_max_width := first_some max_width_token l;
     r_padding_x := first_some padding_x_token l;
     r_justify := first_some justify_token l;
     r_items := first_some items_token l;
     r_colour := first_some text_colour_token l |}.

(** At most one name of [l] is read by [f]. *)
Definition single {A : Type} (f : string -> option A) (l : list string) : bool :=
  (List.length (filter (reads f) l) <=? 1)%nat.

Definition all_single (l : list string) : bool :=
  (single position_token l && single z_token l && single opacity_token l
   && single blur_token l && single blend_token l && single fit_token l
   && single width_token l && single height_token l
   && single max_width_token l && single padding_x_token l
   && single justify_token l && single items_token l
   && single text_colour_token l)%bool.

(** *** Boxes the page declares itself

    What [Navbar] renders is its own affair: the page only names it. *)
Definition own_box (n : node) : bool := negb (is_component "Navbar" n).

Definition own_sites (f : node -> bool) (root : node) : list path :=
  sites (fun n => (own_box n && f n)%bool) root.

(** *** Rendered text *)

Fixpoint tidy_from (prev_space : bool) (s : string) : bool :=
  match s with
  | EmptyString => true
  | String c s' =>
      if (Ascii.eqb c "010" || Ascii.eqb c "013" || Ascii.eqb c "009")%bool
      then false
      else if Ascii.eqb c " "
           then (negb prev_space && tidy_from true s')%bool
           else tidy_from false s'
  end.

(** No line feed, carriage return or tab, and no two spaces in a row. *)
Definition tidy (s : string) : bool := tidy_from false s.

(** The text of a subtree as it reads, its runs put end to end. *)
Definition reads_as (root : node) (q : path) : option string :=
  option_map (fun n => String.concat "" (text_content n)) (lookup q root).

End Lint.

Import Lint.

(** ** Rendering a component again and again

    React calls a function component with its props each time it renders
    it.  Between two renders it keeps a fiber for the mounted component:
    the cells of its state hooks.  A render may read the cells, and may
    ask, besides returning its tree, for a cell to be set or for an effect
    to run; what it asks for is applied before the next render. *)

Module React.

Record fiber : Type := { cells : list Z; passes : nat }.

Inductive request : Type :=
| SetCell (i : nat) (v : Z)
| RunEffect (label : string).

Definition Render (A : Type) : Type := fiber -> A * list request.

Definition ret {A : Type} (a : A) : Render A := fun _ => (a, []).

Definition bind {A B : Type} (m : Render A) (k : A -> Render B) : Render B :=
  fun f =>
    let (a, asked) := m f in
    let (b, asked') := k a f in
    (b, asked ++ asked').

(** [useState]: the value of cell [i], or [initial] on the first render. *)
Definition use_state (i : nat) (initial : Z) : Render Z :=
  fun f => (nth i (cells f) initial, []).

Definition set_state (i : nat) (v : Z) : Render unit :=
  fun _ => (tt, [SetCell i v]).

Definition use_effect (label : string) : Render unit :=
  fun _ => (tt, [RunEffect label]).

Definition component : Type := props -> Render node.

Fixpoint set_cell (i : nat) (v : Z) (l : list Z) : list Z :=
  match i, l with
  | O, [] => [v]
  | O, _ :: l' => v :: l'
  | S i', [] => 0%Z :: set_cell i' v []
  | S i', x :: l' => x :: set_cell i' v l'
  end.

Definition apply_request (f : fiber) (r : request) : fiber :=
  match r with
  | SetCell i v => {| cells := set_cell i v (cells f); passes := passes f |}
  | RunEffect _ => f
  end.

(** One render: the tree, and the fiber as the next render finds it. *)
Definition pass (c : component) (ps : props) (f : fiber) : node * fiber :=
  let (tree, asked) := c ps f in
  (tree, {| cells := cells (fold_left apply_request asked f);
            passes := S (passes f) |}).

(** [n] renders in a row, the props of each chosen by [ps] from the number
    of renders so far; the trees, first render first. *)
Fixpoint rerender (c : component) (ps : nat -> props) (f : fiber) (n : nat)
  : list node :=
  match n with
  | O => []
  | S n' =>
      let (tree, f') := pass c (ps (passes f)) f in
      tree :: rerender c ps f' n'
  end.

(** A component that shows its first state cell and counts it up, to tell
    a component with state from one without. *)
Definition Tally : component :=
  fun _ =>
    bind (use_state 0 0%Z)
      (fun v =>
         bind (set_state 0 (v + 1)%Z)
           (fun _ => ret (Text (if (v =? 0)%Z then "first" else "again")))).

End React.

Import React.

(** [Home] as React calls it: it declares no parameter, so the props it is
    given are dropped; it calls no hook and returns its tree. *)
Definition HomeComponent : component := fun _ => ret (Home tt).

(** ** What shows of a painting

    A layer does not show when a layer painted after it is an opaque
    colour on a box that clips it: the colour fills that box and the layer
    cannot reach outside it.  Whether a colour of the theme is opaque is
    set in the project's Tailwind configuration, which is not among the
    sources; [theme] tells it for each colour name. *)

Module Visible.

Definition opaque_colour (theme : string -> bool) (root : node) (y : layer)
  : bool :=
  match y with
  | LBackground q token =>
      match bg_token token with
      | Some (BgColour c) =>
          ((alpha c =? 100)%Z && theme (name c)
           && match reaching (fun n => (has_effect n || blends n)%bool) root q with
              | [] => true
              | _ => false
              end)%bool
      | _ => false
      end
  | _ => false
  end.

Definition covers (theme : string -> bool) (root : node) (x y : layer) : bool :=
  (opaque_colour theme root y
   && clipped_by root (layer_path y) (layer_path x))%bool.

(** The layers of a painting, back to front, that are not covered by a
    later one. *)
Fixpoint visible (theme : string -> bool) (root : node) (l : list layer)
  : list layer :=
  match l with
  | [] => []
  | x :: l' =>
      if existsb (covers theme root x) l' then visible theme root l'
      else x :: visible theme root l'
  end.

End Visible.

Import Visible.

(** ** Facts about painting, for every tree *)

Module PaintFacts.

Lemma without_pictures_app (a b : list layer) :
  without_pictures (a ++ b) = without_pictures a ++ without_pictures b.
Proof. apply filter_app. Qed.

Lemma insert_level_strip x l :
  insert_level (strip_level x) (map strip_level l)
  = map strip_level (insert_level x l).
Proof.
  induction l as [|y l IH]; simpl; [reflexivity|].
  destruct (fst x <=? fst y)%Z; simpl; [reflexivity|].
  now rewrite IH.
Qed.

Lemma by_level_strip l :
  by_level (map strip_level l) = without_pictures (by_level l).
Proof.
  unfold by_level.
  assert (Hsort : fold_right insert_level [] (map strip_level l)
                  = map strip_level (fold_right insert_level [] l)).
  { induction l as [|x l IH]; simpl; [reflexivity|].
    now rewrite IH, insert_level_strip. }
  rewrite Hsort. clear Hsort.
  induction (fold_right insert_level [] l) as [|x s IH];
    cbn [map List.concat]; [reflexivity|].
  rewrite without_pictures_app, IH. reflexivity.
Qed.

Lemma unit_of_strip b c s :
  unit_of (without_pictures b) (without_pictures c) (strip s)
  = without_pictures (unit_of b c s).
Proof.
  unfold unit_of, strip; simpl.
  rewrite !by_level_strip, !without_pictures_app.
  reflexivity.
Qed.

Lemma place_strip n b c s :
  place n (without_pictures b) (without_pictures c) (strip s)
  = strip (place n b c s).
Proof.
  unfold place.
  destruct (creates_stacking_context n).
  - destruct (stack_level n <? 0)%Z; [|destruct (0 <? stack_level n)%Z];
      unfold strip at 2; simpl; unfold strip_level; simpl;
      now rewrite unit_of_strip.
  - destruct (positioned n); unfold strip; simpl;
      now rewrite !without_pictures_app.
Qed.

Lemma merge_strip a b : merge (strip a) (strip b) = strip (merge a b).
Proof.
  unfold merge, strip; simpl.
  now rewrite !map_app, !without_pictures_app.
Qed.

Lemma own_boxes_strip q n : without_pictures (own_boxes q n) = own_boxes q n.
Proof.
  destruct n as [s|[tag|c] ps cs]; simpl; [reflexivity| |].
  - induction (backgrounds (Element (Host tag) ps cs)) as [|x l IH];
      simpl; [reflexivity|]. now f_equal.
  - destruct (String.eqb c "Image"); reflexivity.
Qed.

Lemma own_content_failed q n :
  own_content false q n = without_pictures (own_content true q n).
Proof.
  destruct n as [s|[tag|c] ps cs]; simpl; try reflexivity.
  destruct (String.eqb c "Image"); simpl; [|reflexivity].
  destruct (assoc "src" ps) as [[src|b]|]; reflexivity.
Qed.

(** A picture that fails to load takes nothing but itself out of what a
    subtree hands to its stacking context. *)
Lemma contributions_failed n :
  forall q, contributions false q n = strip (contributions true q n).
Proof.
  induction n as [s|ty ps cs IH] using node_ind; intro q.
  - reflexivity.
  - cbn [contributions].
    rewrite <- place_strip, own_boxes_strip, <- own_content_failed.
    f_equal.
    generalize 0%nat.
    induction IH as [|c cs' Hc _ IHcs]; intro i; cbn [merge_children];
      [reflexivity|].
    now rewrite <- merge_strip, <- Hc, IHcs.
Qed.

(** ... and out of the painting of the page. *)
Lemma paint_failed root :
  paint false root = without_pictures (paint true root).
Proof.
  unfold paint.
  now rewrite contributions_failed, <- unit_of_strip.
Qed.

(** *** A child of negative level under a positioned parent *)

Lemma insert_level_In x y l : In x (y :: l) -> In x (insert_level y l).
Proof.
  induction l as [|z l IH]; simpl; [tauto|].
  destruct (fst y <=? fst z)%Z; simpl; [tauto|].
  intros [H|[H|H]]; [right; apply IH; now left | now left |].
  right; apply IH; now right.
Qed.

Lemma by_level_incl z u l : In (z, u) l -> incl u (by_level l).
Proof.
  intros H x Hx.
  unfold by_level.
  apply in_concat. exists u. split; [|exact Hx].
  apply in_map_iff. exists (z, u). split; [reflexivity|].
  clear x Hx.
  induction l as [|y l IH]; simpl in *; [contradiction|].
  apply insert_level_In.
  destruct H as [H|H]; [now left | right; now apply IH].
Qed.

Lemma below_merge_children f q cs :
  forall k i c x,
    nth_error cs i = Some c ->
    In x (below (f (q ++ [k + i]%nat) c)) ->
    In x (below (merge_children f q k cs)).
Proof.
  induction cs as [|d cs IH]; intros k i c x Hnth Hx.
  - destruct i; discriminate.
  - cbn [merge_children merge below].
    apply in_or_app.
    destruct i as [|i]; simpl in Hnth.
    + injection Hnth as ->. rewrite Nat.add_0_r in Hx. now left.
    + right. apply (IH (S k) i c x Hnth).
      now replace (S k + i)%nat with (k + S i)%nat by lia.
Qed.

Lemma contributions_context loaded q c :
  creates_stacking_context c = true ->
  (stack_level c < 0)%Z ->
  below (contributions loaded q c)
  = [(stack_level c, paint_unit loaded q c)].
Proof.
  intros Hctx Hz.
  destruct c as [s|ty ps cs]; [discriminate|].
  cbn [contributions]. unfold place. rewrite Hctx.
  apply Z.ltb_lt in Hz. rewrite Hz. reflexivity.
Qed.

(** A positioned box that starts no stacking context hands a child
    context of negative level on to the context around it, and puts its
    own background at the front of what it adds at level 0. *)
Lemma negative_child_strata loaded q ty ps cs i c :
  creates_stacking_context (Element ty ps cs) = false ->
  positioned (Element ty ps cs) = true ->
  nth_error cs i = Some c ->
  creates_stacking_context c = true ->
  (stack_level c < 0)%Z ->
  In (stack_level c, paint_unit loaded (q ++ [i]) c)
     (below (contributions loaded q (Element ty ps cs)))
  /\ exists rest,
       level0 (contributions loaded q (Element ty ps cs))
       = own_boxes q (Element ty ps cs) ++ rest.
Proof.
  intros Hn Hpos Hnth Hc Hz.
  cbn [contributions]. unfold place. rewrite Hn, Hpos.
  cbn [below level0]. split.
  - apply (below_merge_children _ q cs 0 i c); [exact Hnth|].
    rewrite (contributions_context loaded _ c Hc Hz).
    now left.
  - eexists. reflexivity.
Qed.

(** So when such a box is the root of the page, its background is
    painted over every child context of negative level. *)
Lemma negative_child_behind_parent loaded ty ps cs i c :
  creates_stacking_context (Element ty ps cs) = false ->
  positioned (Element ty ps cs) = true ->
  nth_error cs i = Some c ->
  creates_stacking_context c = true ->
  (stack_level c < 0)%Z ->
  exists front back,
    paint loaded (Element ty ps cs)
    = front ++ own_boxes [] (Element ty ps cs) ++ back
    /\ incl (paint_unit loaded [i] c) front.
Proof.
  intros Hn Hpos Hnth Hc Hz.
  destruct (negative_child_strata loaded [] ty ps cs i c Hn Hpos Hnth Hc Hz)
    as [Hin [rest Hrest]].
  unfold paint, unit_of. rewrite Hrest.
  set (s := contributions loaded [] (Element ty ps cs)) in *.
  assert (Hfb : flow_boxes s = []).
  { subst s. cbn [contributions]. unfold place. now rewrite Hn, Hpos. }
  assert (Hfi : flow_inline s = []).
  { subst s. cbn [contributions]. unfold place. now rewrite Hn, Hpos. }
  rewrite Hfb, Hfi.
  exists (by_level (below s)), (rest ++ by_level (above s)).
  split.
  - cbn [app]. now rewrite <- app_assoc.
  - exact (by_level_incl _ _ _ Hin).
Qed.

(** Child contexts of one level are painted in tree order. *)
Lemma by_level_same_level (z : Z) (l : list (Z * list layer)) :
  Forall (fun x => fst x = z) l ->
  by_level l = List.concat (map snd l).
Proof.
  intro H. unfold by_level. f_equal. f_equal.
  induction H as [|x l Hx Hl IH]; [reflexivity|].
  cbn [fold_right]. rewrite IH.
  destruct l as [|y l']; [reflexivity|].
  cbn [insert_level].
  replace (fst x <=? fst y)%Z with true; [reflexivity|].
  symmetry. apply Z.leb_le.
  rewrite Hx, (Forall_inv Hl). lia.
Qed.

End PaintFacts.

(** ** Facts about rendering and about what shows *)

Module RenderFacts.

(** A component that only returns a tree renders that tree every time,
    whatever the props and the fiber. *)
Lemma rerender_constant (t : node) (ps : nat -> props) :
  forall (n : nat) (f : fiber),
    rerender (fun _ => ret t) ps f n = repeat t n.
Proof.
  induction n as [|n IH]; intro f; [reflexivity|].
  cbn [rerender pass ret fold_left repeat]. now rewrite IH.
Qed.

(** A component with state does not: its second render differs from its
    first. *)
Lemma Tally_renders_differ :
  rerender Tally (fun _ => []) {| cells := []; passes := 0 |} 2
  = [Text "first"; Text "again"].
Proof. reflexivity. Qed.

(** Where the theme's [foreground] is opaque, neither the picture nor the
    tint shows in a painting of the page, whether the picture has loaded
    or not: the hero's colour, painted after them on the box that clips
    them, covers both. *)
Lemma visible_page (theme : string -> bool) (loaded : bool) :
  theme "foreground" = true ->
  visible theme (Home tt) (paint loaded (Home tt))
  = [navbar] ++ section_layers ++ [hero_colour; heading; subheading].
Proof.
  intro H. destruct loaded; vm_compute; rewrite H; reflexivity.
Qed.

End RenderFacts.

(** ** The page against its specification *)

Module HomeSpec.

(** C1.  In every render the picture is painted before the tint and the
    tint before the heading and the subheading, whether or not the picture
    has loaded; the tint has the overlay blend mode, belongs to the
    stacking context of the box that wraps picture and tint, and so is
    blended with the picture alone, not with anything of the page outside
    that box. *)
Theorem hero_stacking_order :
  forall (u : unit) (loaded : bool),
    let page := Home u in
    filter (fun x => under stack_path x || under hero_text_path x)%bool
      (paint true page)
    = [picture; tint; heading; subheading]
    /\ beneath (paint true page) (under image_path) (under gradient_path)
       = true
    /\ beneath (paint loaded page) (under gradient_path)
         (under hero_text_path) = true
    /\ option_map blend_of (lookup gradient_path page) = Some Overlay
    /\ stacking_context_of page gradient_path = Some stack_path
    /\ backdrop true page gradient_path = [picture].
Proof.
  intros [] [|]; vm_compute; repeat split; reflexivity.
Qed.


(** C3.  In every render the tint has exactly the overlay blend mode;
    neither the tint nor any of its ancestors carries a blur; the only
    box of the page with a blur is the picture, which is no ancestor of
    the tint. *)
Theorem tint_overlay_without_blur :
  forall u : unit,
    let page := Home u in
    option_map blend_of (lookup gradient_path page) = Some Overlay
    /\ option_map (has "mix-blend-overlay") (lookup gradient_path page)
       = Some true
    /\ option_map blur_of (lookup gradient_path page) = Some None
    /\ reaching has_blur page gradient_path = []
    /\ sites has_blur page = [image_path]
    /\ is_prefix image_path gradient_path = false.
Proof.
  intros []; vm_compute; repeat split; reflexivity.
Qed.

(** C4.  In every render the picture has cover fit, an opacity strictly
    between 0 and 1 and a blur; picture and tint cover the same box, the
    hero's, and have its size in every viewport; the gradient of the tint
    is radial, starts at the centre with a cool colour and ends at the
    edge with black. *)
Theorem picture_and_tint_styling :
  forall (u : unit) (v : viewport),
    let page := Home u in
    option_map object_fit_of (lookup image_path page) = Some FitCover
    /\ (exists o, option_map opacity_of (lookup image_path page) = Some o
                  /\ (0 < o < 100)%Z)
    /\ (exists r, option_map blur_of (lookup image_path page) = Some (Some r)
                  /\ (0 < r)%Z)
    /\ region page image_path = hero_path
    /\ region page gradient_path = hero_path
    /\ size_of v page image_path = size_of v page hero_path
    /\ size_of v page gradient_path = size_of v page hero_path
    /\ (exists first middle last,
          option_map radial_gradient (lookup gradient_path page)
          = Some (Some [(0%Z, first); middle; (100%Z, last)])
          /\ cool first = true
          /\ is_black last = true
          /\ alpha last = 100%Z).
Proof.
  intros [] [w h]; cbv zeta.
  split; [reflexivity|].
  split; [exists 30%Z; split; [reflexivity | lia]|].
  split; [exists 2%Z; split; [reflexivity | lia]|].
  split; [reflexivity|].
  split; [reflexivity|].
  split; [vm_compute; reflexivity|].
  split; [vm_compute; reflexivity|].
  exists {| name := "blue-900"; alpha := 20 |}.
  exists (50%Z, {| name := "purple-900"; alpha := 10 |}).
  exists {| name := "black"; alpha := 100 |}.
  repeat split; reflexivity.
Qed.

(** C5.  In every render the text block is the only in-flow child of the
    hero, a flex column that centres its items on both axes, so that it
    sits half the free room from the left and from the top whatever the
    sizes; it is painted after the picture and after the tint; no box of
    the text block is reached by an opacity or a blur, which the page
    sets on the picture alone, and the picture is no ancestor of the
    text. *)
Theorem hero_text_centred_above_unaffected :
  forall (u : unit) (loaded : bool) (room_w room_h w h : Z),
    let page := Home u in
    option_map in_flow_children (lookup hero_path page)
    = option_map (fun t => [t]) (lookup hero_text_path page)
    /\ option_map (fun hero => place_single hero room_w room_h w h)
         (lookup hero_path page)
       = Some (Some (((room_w - w) / 2)%Z, ((room_h - h) / 2)%Z))
    /\ beneath (paint true page) (under image_path) (under hero_text_path)
       = true
    /\ beneath (paint loaded page) (under gradient_path)
         (under hero_text_path) = true
    /\ forallb (fun q => match reaching has_effect page q with
                         | [] => true
                         | _ => false
                         end) (subtree page hero_text_path) = true
    /\ sites has_opacity page = [image_path]
    /\ sites has_blur page = [image_path]
    /\ is_prefix image_path hero_text_path = false.
Proof.
  intros [] loaded room_w room_h w h; cbv zeta.
  split; [reflexivity|].
  split.
  { assert (Hhero :
      option_map (fun hero => (is_flex hero, direction_of hero,
                               items_of hero, justify_of hero,
                               List.length (in_flow_children hero)))
        (lookup hero_path (Home tt))
      = Some (true, Column, AtCentre, AtCentre, 1%nat))
      by (vm_compute; reflexivity).
    destruct (lookup hero_path (Home tt)) as [hero|]; [|discriminate].
    cbn [option_map] in *.
    injection Hhero as Hflex Hdir Hitems Hjust Hlen.
    unfold place_single. rewrite Hflex, Hdir, Hitems, Hjust.
    destruct (in_flow_children hero) as [|c [|d l]]; try discriminate.
    reflexivity. }
  destruct loaded; vm_compute; repeat split; reflexivity.
Qed.

(** C7.  [Home] reads nothing between renders and asks for nothing: given
    any props and any fiber it returns the same tree with no request, so
    any number of renders in a row give that tree each time.  With the
    picture loaded the painting of the tree has one layer more, the
    picture, than without; what shows of the painting is nevertheless the
    same in any two renders, whenever the picture's load state is the same
    in both or the hero's colour is opaque. *)
Theorem Home_rerender_identical :
  forall (theme : string -> bool) (ps1 ps2 : props) (f1 f2 : fiber)
         (loaded1 loaded2 : bool) (ps : nat -> props) (n : nat),
    let first := HomeComponent ps1 f1 in
    let second := HomeComponent ps2 f2 in
    fst first = fst second
    /\ snd first = []
    /\ snd second = []
    /\ rerender HomeComponent ps f1 n = repeat (fst first) n
    /\ paint true (fst first) = picture :: paint false (fst second)
    /\ (loaded1 = loaded2 \/ theme "foreground" = true ->
        visible theme (fst first) (paint loaded1 (fst first))
        = visible theme (fst second) (paint loaded2 (fst second))).
Proof.
  intros theme ps1 ps2 f1 f2 loaded1 loaded2 ps n.
  unfold HomeComponent. cbn [ret fst snd].
  split; [reflexivity|].
  split; [reflexivity|].
  split; [reflexivity|].
  split; [apply RenderFacts.rerender_constant|].
  split; [vm_compute; reflexivity|].
  intros [-> | H]; [reflexivity|].
  now rewrite !(RenderFacts.visible_page theme _ H).
Qed.

Lemma Home_rerender_identical_witness :
  visible (fun _ => true) (Home tt) (paint true (Home tt))
  = visible (fun _ => true) (Home tt) (paint false (Home tt)).
Proof.
  exact (proj2 (proj2 (proj2 (proj2 (proj2
           (Home_rerender_identical (fun _ => true) [] []
              {| cells := []; passes := 0 |}
              {| cells := [1%Z]; passes := 3 |}
              true false (fun _ => []) 2)))))
           (or_intror eq_refl)).
Defined.

(** C10.  The content of the page is fixed: the heading and the
    subheading of the hero, the source and the alternative text of the
    picture, and the text of the page, which is that of the hero followed
    by that of the first and then of the second section. *)
Theorem page_content_is_constant :
  forall u : unit,
    let page := Home u in
    option_map text_content (lookup heading_path page)
    = Some ["Start creating."]
    /\ option_map text_content (lookup subheading_path page)
       = Some ["Transform Hours of Footage into Minutes of Magic."]
    /\ assoc "src" (props_at page image_path) = Some (PString "/bg.jpg")
    /\ assoc "alt" (props_at page image_path) = Some (PString "background")
    /\ option_map text_content (lookup hero_path page)
       = Some [heading_text; subheading_text]
    /\ option_map text_content (lookup first_section_path page)
       = Some (firstn 3 section_texts)
    /\ option_map text_content (lookup second_section_path page)
       = Some (skipn 3 section_texts)
    /\ text_content page = heading_text :: subheading_text :: section_texts.
Proof.
  intros []; vm_compute; repeat split; reflexivity.
Qed.

(** C6.  When the picture fails to load, the painting of the page loses
    the picture and nothing else: the tint, the hero's colour, the text
    of the hero and of both sections are all painted.  But no layer is
    beneath the picture: the picture is the first thing the page paints,
    and the hero's colour is painted after it and after the tint, not
    underneath. *)
Theorem picture_failure_and_fallback :
  forall u : unit,
    let page := Home u in
    paint false page = without_pictures (paint true page)
    /\ paint false page
       = [tint; navbar] ++ section_layers ++ [hero_colour; heading; subheading]
    /\ paint true page = picture :: paint false page
    /\ before_path image_path (paint true page) = []
    /\ beneath (paint true page) (under image_path) (at_box hero_path)
       = true.
Proof.
  intros []; cbv zeta.
  split; [apply PaintFacts.paint_failed|].
  vm_compute; repeat split; reflexivity.
Qed.

(** C8, as stated, fails: [Image] is not called with the four props
    only; a fifth, [className], is among them. *)
Lemma Image_receives_a_fifth_prop :
  ~ (forall k : string,
       In k (map fst (props_at (Home tt) image_path)) ->
       In k ["src"; "alt"; "fill"; "priority"]).
Proof.
  intro H.
  assert (Hin : In "className" (map fst (props_at (Home tt) image_path)))
    by (vm_compute; tauto).
  apply H in Hin.
  destruct Hin as [E|[E|[E|[E|[]]]]]; discriminate E.
Qed.

(** C8, amended.  In every render [Image] is called once, with exactly
    five props: the asset path, the alternative text, [fill], [priority]
    and the class names of its styling; [fill] and [priority] are both
    set. *)
Theorem Image_invocation :
  forall u : unit,
    let page := Home u in
    sites (is_component "Image") page = [image_path]
    /\ props_at page image_path = image_props
    /\ assoc "fill" (props_at page image_path) = Some (PBool true)
    /\ assoc "priority" (props_at page image_path) = Some (PBool true).
Proof.
  intros []; vm_compute; repeat split; reflexivity.
Qed.

(** C9.  In every render the picture and the tint are the two children
    of one box that is absolutely positioned with z-index -10; the hero
    carries the colour [bg-foreground] with no alpha modifier and starts
    no stacking context; and of what the hero's subtree paints, the
    picture and the tint come first, then the hero's own colour, then the
    text. *)
Theorem stack_behind_hero_colour :
  forall (u : unit) (loaded : bool),
    let page := Home u in
    option_map classes (lookup stack_path page)
    = Some ["absolute"; "inset-0"; "-z-10"]
    /\ option_map position_of (lookup stack_path page) = Some Absolute
    /\ option_map z_index_of (lookup stack_path page) = Some (Some (-10)%Z)
    /\ subtree page stack_path = [stack_path; image_path; gradient_path]
    /\ option_map backgrounds (lookup hero_path page)
       = Some [("bg-foreground",
                BgColour {| name := "foreground"; alpha := 100 |})]
    /\ option_map creates_stacking_context (lookup hero_path page)
       = Some false
    /\ layers_under hero_path (paint loaded page)
       = (if loaded then [picture] else [])
         ++ [tint; hero_colour; heading; subheading]
    /\ beneath (paint loaded page) (under gradient_path) (at_box hero_path)
       = true.
Proof.
  intros [] [|]; vm_compute; repeat split; reflexivity.
Qed.

End HomeSpec.

(** ** Facts about trees and class lists *)

Module TreeFacts.

Lemma In_children_positions (q : path) :
  forall (cs : list node) (k i : nat) (c : node) (x : path * node),
    nth_error cs i = Some c ->
    In x (positions (q ++ [(k + i)%nat]) c) ->
    In x ((fix go (j : nat) (l : list node) : list (path * node) :=
             match l with
             | [] => []
             | d :: l' => positions (q ++ [j]) d ++ go (S j) l'
             end) k cs).
Proof.
  induction cs as [|d cs IH]; intros k i c x Hnth Hx.
  - destruct i; discriminate.
  - apply in_or_app.
    destruct i as [|i]; simpl in Hnth.
    + injection Hnth as ->. rewrite Nat.add_0_r in Hx. now left.
    + right. apply (IH (S k) i c x Hnth).
      now replace (S k + i)%nat with (k + S i)%nat by lia.
Qed.

(** Whatever [lookup] finds is among the [positions], at the same path. *)
Lemma lookup_positions (q : path) :
  forall (root : node) (p0 : path) (n : node),
    lookup q root = Some n -> In (p0 ++ q, n) (positions p0 root).
Proof.
  induction q as [|i q IH]; intros root p0 n H.
  - injection H as ->. rewrite app_nil_r.
    destruct n; left; reflexivity.
  - cbn [lookup] in H.
    destruct (nth_error (node_children root) i) as [c|] eqn:Hnth;
      [|discriminate].
    destruct root as [s|ty ps cs]; [destruct i; discriminate|].
    cbn [node_children] in Hnth. cbn [positions]. right.
    apply (In_children_positions p0 cs 0 i c); [exact Hnth|].
    cbn [Nat.add].
    replace (p0 ++ i :: q) with ((p0 ++ [i]) ++ q)
      by (rewrite <- app_assoc; reflexivity).
    now apply IH.
Qed.

(** A reading that takes the first name of its family does not depend on
    the order of the names when the list holds at most one of them. *)
Lemma first_some_permutation {B : Type} (f : string -> option B)
    (l l' : list string) :
  Permutation l l' ->
  List.length (filter (reads f) l') = List.length (filter (reads f) l)
  /\ (single f l = true -> first_some f l' = first_some f l).
Proof.
  unfold single, reads.
  induction 1 as [|x l l' Hp [IHn IHf]|x y l|l l' l'' _ [IH1n IH1f] _ [IH2n IH2f]].
  - split; reflexivity.
  - cbn [filter first_some is_some]. destruct (f x) as [b|]; cbn [is_some].
    + split; [cbn [List.length]; now rewrite IHn | reflexivity].
    + split; [exact IHn | exact IHf].
  - cbn [filter first_some]. destruct (f x) as [b|], (f y) as [b'|];
      cbn [is_some List.length]; split; try reflexivity.
    intro H. apply Nat.leb_le in H. lia.
  - split; [now rewrite IH2n, IH1n|].
    intro H. rewrite IH2f, IH1f; [reflexivity | exact H |].
    now rewrite IH1n.
Qed.

Lemma read_all_permutation (l l' : list string) :
  all_single l = true ->
  Permutation l l' ->
  read_all l' = read_all l.
Proof.
  unfold all_single. intros H Hp.
  repeat (apply andb_prop in H; destruct H as [H ?]).
  unfold read_all.
  repeat match goal with
         | Hs : single ?f l = true |- _ =>
             rewrite (proj2 (first_some_permutation f l l' Hp) Hs); clear Hs
         end.
  reflexivity.
Qed.

End TreeFacts.

(** ** More about the page: its class lists, contexts, boxes and text *)

Module HomeExtra.

Lemma page_class_lists_single :
  forallb (fun pn => (all_single (classes (snd pn))
                      && no_repeat (classes (snd pn)))%bool)
    (positions [] (Home tt)) = true.
Proof. vm_compute. reflexivity. Qed.

(** X1.  No element of the page names a class twice or carries two
    utilities of one family, so what is read from the class list of an
    element stays the same however its names are reordered. *)
Theorem class_order_immaterial :
  forall (u : unit) (q : path) (n : node) (l' : list string),
    lookup q (Home u) = Some n ->
    Permutation (classes n) l' ->
    no_repeat (classes n) = true
    /\ clashes n = []
    /\ read_all l' = read_all (classes n).
Proof.
  intros [] q n l' Hq Hp.
  apply (TreeFacts.lookup_positions q (Home tt) []) in Hq.
  cbn [app] in Hq.
  pose proof page_class_lists_single as Hall.
  rewrite forallb_forall in Hall. specialize (Hall _ Hq).
  cbn [snd] in Hall. apply andb_prop in Hall. destruct Hall as [Hs Hn].
  split; [exact Hn|]. split.
  - assert (Hc : forallb (fun pn => match clashes (snd pn) with
                                    | [] => true
                                    | _ => false
                                    end) (positions [] (Home tt)) = true)
      by (vm_compute; reflexivity).
    rewrite forallb_forall in Hc. specialize (Hc _ Hq). cbn [snd] in Hc.
    now destruct (clashes n).
  - now apply TreeFacts.read_all_permutation.
Qed.

Lemma class_order_immaterial_witness :
  let tint_box :=
    div "absolute inset-0 bg-gradient-radial from-blue-900/20 via-purple-900/10 to-black mix-blend-overlay" [] in
  let reordered :=
    [ "inset-0"; "absolute"; "bg-gradient-radial"; "from-blue-900/20";
      "via-purple-900/10"; "to-black"; "mix-blend-overlay" ] in
  lookup gradient_path (Home tt) = Some tint_box
  /\ Permutation (classes tint_box) reordered
  /\ read_all reordered = read_all (classes tint_box).
Proof.
  cbv zeta.
  assert (Hl : lookup gradient_path (Home tt)
               = Some (div "absolute inset-0 bg-gradient-radial from-blue-900/20 via-purple-900/10 to-black mix-blend-overlay" []))
    by reflexivity.
  assert (Hp : Permutation
                 (classes (div "absolute inset-0 bg-gradient-radial from-blue-900/20 via-purple-900/10 to-black mix-blend-overlay" []))
                 [ "inset-0"; "absolute"; "bg-gradient-radial";
                   "from-blue-900/20"; "via-purple-900/10"; "to-black";
                   "mix-blend-overlay" ]).
  { change (Permutation
              [ "absolute"; "inset-0"; "bg-gradient-radial";
                "from-blue-900/20"; "via-purple-900/10"; "to-black";
                "mix-blend-overlay" ]
              [ "inset-0"; "absolute"; "bg-gradient-radial";
                "from-blue-900/20"; "via-purple-900/10"; "to-black";
                "mix-blend-overlay" ]).
    apply perm_swap. }
  split; [exact Hl|]. split; [exact Hp|].
  exact (proj2 (proj2 (class_order_immaterial tt gradient_path _ _ Hl Hp))).
Defined.


(** X3.  Compositing is confined to the background stack of the hero: of
    the boxes the page declares itself, the wrapper, the picture and the
    tint are the only ones that start a stacking context, and the only
    ones with a z-index, an opacity, a blur or a blend mode; the root, the
    hero, its text and both sections have none, and every run of text
    belongs to the root context. *)
Theorem compositing_confined_to_stack :
  forall u : unit,
    let page := Home u in
    own_sites creates_stacking_context page
    = [stack_path; image_path; gradient_path]
    /\ own_sites (fun n => is_some (z_index_of n)) page = [stack_path]
    /\ own_sites has_effect page = [image_path]
    /\ own_sites blends page = [gradient_path]
    /\ forallb (fun r => negb (is_some (stacking_context_of page (fst r))))
         (text_runs page) = true.
Proof.
  intros []. vm_compute. repeat split; reflexivity.
Qed.

(** X4.  The root box is positioned and hides its overflow; of the boxes
    the page declares itself none is fixed or sticky, and every one but
    the root has its containing block inside the page and the root in its
    chain of containing blocks: the root clips all that the page lays
    out. *)
Theorem root_clips_every_box :
  forall u : unit,
    let page := Home u in
    option_map position_of (lookup [] page) = Some Relative
    /\ option_map clips (lookup [] page) = Some true
    /\ own_sites (fun n => match position_of n with
                           | Fixed | Sticky => true
                           | _ => false
                           end) page = []
    /\ forallb (fun pn => match fst pn with
                          | [] => true
                          | _ => (negb (own_box (snd pn))
                                  || is_some (containing_block page (fst pn))
                                     && clipped_by page [] (fst pn))%bool
                          end) (positions [] page) = true.
Proof.
  intros []. vm_compute. repeat split; reflexivity.
Qed.

(** X5.  Of the text of the page, the hero's heading is set in white and
    the paragraphs of both sections, their highlighted words included, in
    [muted-foreground]; the hero's subheading and the headings of both
    sections get no colour from any box of the page. *)
Theorem text_colours :
  forall u : unit,
    let page := Home u in
    map (fun r => (snd r, option_map name (text_colour_at page (fst r))))
      (text_runs page)
    = [ (heading_text, Some "white");
        (subheading_text, None);
        ("Create short videos from long ones in a single click", None);
        ("A tool that can create short videos from long ones before you can say ",
         Some "muted-foreground");
        ("Adabra Kadabra", Some "muted-foreground");
        ("Built to work the way humans do", None);
        ("Autocut's multi-pass system utilizes Whisper model and Diarization for ",
         Some "muted-foreground");
        ("seamless", Some "muted-foreground");
        (" video editing.", Some "muted-foreground") ].
Proof.
  intros []. vm_compute. reflexivity.
Qed.

(** X6.  The line breaks and the indentation of the source do not reach
    the text: no run of text is empty or holds a line feed, a tab or two
    spaces in a row, and each paragraph of the sections reads as one
    sentence with single spaces around its highlighted word. *)
Theorem section_text_reads_clean :
  forall u : unit,
    let page := Home u in
    forallb (fun r => (non_empty (snd r) && tidy (snd r))%bool)
      (text_runs page) = true
    /\ reads_as page [2; 0; 0]%nat
       = Some "Create short videos from long ones in a single click"
    /\ reads_as page [2; 0; 1]%nat
       = Some "A tool that can create short videos from long ones before you can say Adabra Kadabra"
    /\ reads_as page [2; 1; 0]%nat = Some "Built to work the way humans do"
    /\ reads_as page [2; 1; 1]%nat
       = Some "Autocut's multi-pass system utilizes Whisper model and Diarization for seamless video editing.".
Proof.
  intros []. vm_compute. repeat split; reflexivity.
Qed.

End HomeExtra.
